(** * InsightOs system monitor: the metrics core of [app.py]

    A shallow embedding of the non-graphical part of [SystemMonitor]:
    the rolling windows kept by [update_metrics], the process-table
    fetch and the two rankings of [show_top_processes] and
    [show_gaming_stats], and the selection-and-terminate loop of
    [boost_performance].

    Numbers.  [psutil] reports [memory_info.rss] as an integer number of
    bytes and the percentages as finite floats.  Finite floats are
    rationals and the code only compares them, divides a byte count by
    1024 twice (exact for every byte count below 2^53) and multiplies a
    load by 100, so they are modelled by [Q] with its order [Qlt] and
    its equality [Qeq]. *)

From Stdlib Require Import List Bool Arith ZArith QArith Lia Lqa String.
From Stdlib Require Import Permutation Sorted Qround.
Import ListNotations.

Open Scope nat_scope.

(** ** Rolling windows ([update_metrics], lines 287-299) *)

Module Rolling.

(** The literal 30 of the three slices [xs[-30:]]. *)
Definition K : nat := 30.

(** Python's [xs[-n:]] for [n > 0]: the last [n] elements, the whole
    list when it has fewer. *)
Definition last_slice {A : Type} (n : nat) (xs : list A) : list A :=
  skipn (List.length xs - n) xs.

(** Python's [xs.append(x)]. *)
Definition append {A : Type} (xs : list A) (x : A) : list A := xs ++ [x].

(** What [GPUtil.getGPUs()] yields for one device, as far as the
    metrics use it: the load, a fraction between 0 and 1. *)
Record GPU : Type := mkGPU { load : Q }.

(** The three lists of [SystemMonitor] that feed the plots. *)
Record Monitor : Type := mkMonitor {
  cpu_usage : list Q;
  ram_usage : list Q;
  gpu_usage : list Q
}.

(** [__init__], lines 126-128. *)
Definition init : Monitor :=
  {| cpu_usage := []; ram_usage := []; gpu_usage := [] |}.

(** What the adapters return during one tick: [psutil.cpu_percent()],
    [psutil.virtual_memory().percent] and [GPUtil.getGPUs()]. *)
Record Tick : Type := mkTick {
  cpu_percent : Q;
  virtual_memory_percent : Q;
  getGPUs : list GPU
}.

(** Lines 294-298: the sample for the accelerator window. *)
Definition gpu_sample (gpus : list GPU) : Q :=
  match gpus with
  | g :: _ => (load g * 100)%Q
  | [] => 0%Q
  end.

(** Lines 288-299 (the plotting that follows reads the lists and does
    not change them). *)
Definition update_metrics (m : Monitor) (t : Tick) : Monitor :=
  let cpu := last_slice K (append (cpu_usage m) (cpu_percent t)) in
  let ram := last_slice K (append (ram_usage m) (virtual_memory_percent t)) in
  let gpu := last_slice K (append (gpu_usage m) (gpu_sample (getGPUs t))) in
  {| cpu_usage := cpu; ram_usage := ram; gpu_usage := gpu |}.

(** The timer calling [update_metrics] once per tick. *)
Definition run (m : Monitor) (ticks : list Tick) : Monitor :=
  fold_left update_metrics ticks m.

(** A window fed sample by sample, as each of the three lists is. *)
Definition feed {A : Type} (w : list A) (samples : list A) : list A :=
  fold_left (fun w x => last_slice K (append w x)) samples w.

End Rolling.

(** ** The process table ([psutil.process_iter]) *)

Module Procs.

Local Open Scope Q_scope.

(** The two exceptions the loops catch. *)
Inductive PsutilError : Type :=
| NoSuchProcess
| AccessDenied.

(** [proc.info] for the attributes the loops ask for:
    ['pid'], ['name'], ['memory_info'].rss (bytes) and ['cpu_percent']. *)
Record ProcInfo : Type := mkProc {
  pid : Z;
  name : string;
  rss : Z;
  cpu_percent : Q
}.

(** One entry of the iteration as the loops are written: the body of
    the [try] either gets the [info] of the process or raises one of
    the two exceptions the [except] clause names.  With
    [psutil.process_iter(attrs)] the body reads a dictionary that was
    filled in advance (see [Iter] below): a vanished process is never
    yielded and a field that may not be read is [None], so the tables
    the program meets are made of [Read] entries. *)
Inductive Entry : Type :=
| Read (p : ProcInfo)
| Raises (e : PsutilError).

(** [proc.info['memory_info'].rss / 1024 / 1024]. *)
Definition mem_mb (p : ProcInfo) : Q := inject_Z (rss p) / 1024 / 1024.

(** The tuple [(pid, name, mem_mb, cpu_percent)] the two views append;
    [x0] .. [x3] stand for [x[0]] .. [x[3]]. *)
Record Row : Type := mkRow {
  x0 : Z;
  x1 : string;
  x2 : Q;
  x3 : Q
}.

Definition row_of (p : ProcInfo) : Row :=
  {| x0 := pid p; x1 := name p; x2 := mem_mb p; x3 := cpu_percent p |}.

(** Lines 184-195 and 264-275: the loop that builds [processes];
    an entry that raises is passed over by [continue]. *)
Fixpoint fetch (table : list Entry) : list Row :=
  match table with
  | [] => []
  | Read p :: rest => row_of p :: fetch rest
  | Raises _ :: rest => fetch rest
  end.

(** The entries a loop reads without an exception. *)
Fixpoint readable (table : list Entry) : list ProcInfo :=
  match table with
  | [] => []
  | Read p :: rest => p :: readable rest
  | Raises _ :: rest => readable rest
  end.


End Procs.

(** ** The fetch loop on what [process_iter] really yields *)

Module Iter.

Local Open Scope Q_scope.

(** [proc.info] as [process_iter(attrs)] fills it, by
    [as_dict(attrs, ad_value=None)]: the pid is always there; an
    attribute whose retrieval was denied is [None].  [memory_info]
    holds the [rss] in bytes. *)
Record Info : Type := mkInfo {
  pid : Z;
  name : option string;
  memory_info : option Z;
  cpu_percent : option Q
}.

(** What the loop raises and no [except] clause of it catches:
    [None.rss] is an [AttributeError]. *)
Inductive Uncaught : Type :=
| AttributeError.

(** A call either returns or is left by an uncaught exception. *)
Inductive Outcome (A : Type) : Type :=
| Returned (a : A)
| Raised (e : Uncaught).

Arguments Returned {A} a.
Arguments Raised {A} e.

(** The tuple [(pid, name, mem_mb, cpu_percent)], whose name and CPU
    percent are whatever the dictionary holds. *)
Record RawRow : Type := mkRawRow {
  r0 : Z;
  r1 : option string;
  r2 : Q;
  r3 : option Q
}.

(** Lines 184-195 and 264-275 on such a table.  Reading the dictionary
    raises neither [NoSuchProcess] nor [AccessDenied], so the [except]
    clause is never entered; [.rss] on a [memory_info] that is [None]
    raises [AttributeError], which ends the loop and the method. *)
Fixpoint fetch_loop (table : list Info) : Outcome (list RawRow) :=
  match table with
  | [] => Returned []
  | proc :: rest =>
      match memory_info proc with
      | None => Raised AttributeError
      | Some rss =>
          let mem_mb := inject_Z rss / 1024 / 1024 in
          let row := {| r0 := pid proc; r1 := name proc;
                        r2 := mem_mb; r3 := cpu_percent proc |} in
          match fetch_loop rest with
          | Returned processes => Returned (row :: processes)
          | Raised e => Raised e
          end
      end
  end.

(** A dictionary with every field present, and the row it gives. *)
Definition info_of (p : Procs.ProcInfo) : Info :=
  {| pid := Procs.pid p; name := Some (Procs.name p);
     memory_info := Some (Procs.rss p);
     cpu_percent := Some (Procs.cpu_percent p) |}.

Definition raw_of (r : Procs.Row) : RawRow :=
  {| r0 := Procs.x0 r; r1 := Some (Procs.x1 r);
     r2 := Procs.x2 r; r3 := Some (Procs.x3 r) |}.

End Iter.

(** ** Ranking ([show_top_processes], [show_gaming_stats]) *)

Module Ranker.

Import Procs.
Local Open Scope Q_scope.

(** The sort keys are pairs of floats. *)
Definition Key : Type := (Q * Q)%type.

(** [a < b] on floats. *)
Definition Qltb (a b : Q) : bool := negb (Qle_bool b a).

(** Python's [<] on two pairs: the first components that differ (by
    [==]) decide; equal pairs are not below each other. *)
Definition key_lt (a b : Key) : bool :=
  if Qeq_bool (fst a) (fst b)
  then if Qeq_bool (snd a) (snd b) then false else Qltb (snd a) (snd b)
  else Qltb (fst a) (fst b).

Section Sort.

Variable key : Row -> Key.

(** One step of a stable ascending sort: [x], which stood before all
    of [l], goes in front of the first element that is not below it,
    so it stays ahead of the elements with an equal key. *)
Fixpoint insert (x : Row) (l : list Row) : list Row :=
  match l with
  | [] => [x]
  | y :: rest =>
      if key_lt (key y) (key x) then y :: insert x rest else x :: y :: rest
  end.

(** [list.sort(key=key)]: stable, ascending, using only [<] on keys. *)
Definition stable_sort (l : list Row) : list Row := fold_right insert [] l.

(** [list.sort(key=key, reverse=True)]: the list is reversed, sorted
    stably in ascending order and reversed again, which is how the
    interpreter keeps the sort stable under [reverse]. *)
Definition sort_reverse (l : list Row) : list Row :=
  rev (stable_sort (rev l)).

End Sort.

(** Line 278: [key=lambda x: (x[3], x[2])]. *)
Definition display_key (x : Row) : Key := (x3 x, x2 x).

(** Line 197: [key=lambda x: (x[2], x[3])]. *)
Definition gaming_key (x : Row) : Key := (x2 x, x3 x).

(** Lines 263-285: the rows written under the header of the
    "Top Processes" tab, [processes[:10]] after the sort (the
    formatting of a row into text is not modelled). *)
Definition show_top_processes (table : list Entry) : list Row :=
  firstn 10 (sort_reverse display_key (fetch table)).

(** What [show_gaming_stats] puts in the "Gaming Mode" tab. *)
Inductive GamingView : Type :=
| NoGpuDetected
| GamingStats (gpu : Rolling.GPU) (top : list Row).

(** Lines 163-201: without a GPU the view is the text
    "No GPU detected." and the function returns; otherwise the stats of
    [gpus[0]] followed by [processes[:5]] after the sort. *)
Definition show_gaming_stats
    (gpus : list Rolling.GPU) (table : list Entry) : GamingView :=
  match gpus with
  | [] => NoGpuDetected
  | gpu :: _ => GamingStats gpu (firstn 5 (sort_reverse gaming_key (fetch table)))
  end.

(** Two rows tie when neither key is below the other. *)
Definition tie (key : Row -> Key) (x y : Row) : bool :=
  negb (key_lt (key x) (key y)) && negb (key_lt (key y) (key x)).

(** [a] may stand before [b] in ascending, resp. descending, order of
    the keys as [key_lt] compares them. *)
Definition asc (key : Row -> Key) (a b : Row) : Prop :=
  key_lt (key b) (key a) = false.
Definition desc (key : Row -> Key) (a b : Row) : Prop :=
  key_lt (key a) (key b) = false.

(** Descending by CPU percent, then by memory: [a] may be shown above
    [b]. *)
Definition display_order (a b : Row) : Prop :=
  x3 b < x3 a \/ (x3 a == x3 b /\ x2 b <= x2 a).

(** Descending by memory, then by CPU percent. *)
Definition gaming_order (a b : Row) : Prop :=
  x2 b < x2 a \/ (x2 a == x2 b /\ x3 b <= x3 a).



End Ranker.

(** ** Remediation ([boost_performance], lines 203-215) *)

Module Boost.

Import Procs.
Local Open Scope Q_scope.

(** Line 208: the literal list of names. *)
Definition excluded : list string :=
  ["explorer.exe"; "python.exe"; "your_game.exe"]%string.

(** [s in names] on a list of strings. *)
Definition name_in (s : string) (names : list string) : bool :=
  existsb (String.eqb s) names.

(** Lines 207-208: the two nested conditions. *)
Definition is_candidate (p : ProcInfo) : bool :=
  if Ranker.Qltb (cpu_percent p) 5 && Ranker.Qltb (mem_mb p) 50
  then negb (name_in (name p) excluded)
  else false.

Definition newline : string := String (Ascii.ascii_of_nat 10) EmptyString.

(** ["\n".join(killed)]. *)
Definition join_lines (names : list string) : string :=
  String.concat newline names.

(** Lines 214-215; the conditional expression binds weaker than [+]. *)
Definition boost_message (killed : list string) : string :=
  match killed with
  | [] => (newline ++ "[BOOST] No background tasks needed termination.")%string
  | _ => (newline ++ "[BOOST] Terminated background processes:" ++ newline
            ++ join_lines killed)%string
  end.

(** The processes the loop decides to terminate: the readable entries
    that pass the two conditions. *)
Definition candidates (table : list Entry) : list ProcInfo :=
  filter is_candidate (readable table).

Section Loop.

(** The operating system as the loop meets it: a state and the effect
    of [psutil.Process(pid).terminate()] on it, which may raise. *)
Variable World : Type.
Variable terminate : World -> Z -> World * option PsutilError.

(** Lines 205-212, with [killed] as an accumulator. *)
Fixpoint boost_loop (w : World) (killed : list string) (table : list Entry)
  : World * list string :=
  match table with
  | [] => (w, killed)
  | Raises _ :: rest => boost_loop w killed rest
  | Read p :: rest =>
      if is_candidate p then
        match terminate w (pid p) with
        | (w', None) => boost_loop w' (killed ++ [name p]) rest
        | (w', Some _) => boost_loop w' killed rest
        end
      else boost_loop w killed rest
  end.

(** Lines 203-215: the world after the loop and the text appended to
    the gaming tab. *)
Definition boost_performance (w : World) (table : list Entry)
  : World * string :=
  let (w', killed) := boost_loop w [] table in
  (w', boost_message killed).

(** Calling [terminate] on each of [cands] in turn, whatever the
    earlier calls did: every call with its outcome. *)
Fixpoint attempts (w : World) (cands : list ProcInfo)
  : list (ProcInfo * option PsutilError) :=
  match cands with
  | [] => []
  | p :: rest =>
      let (w', o) := terminate w (pid p) in (p, o) :: attempts w' rest
  end.

(** The world after those calls. *)
Fixpoint after_attempts (w : World) (cands : list ProcInfo) : World :=
  match cands with
  | [] => w
  | p :: rest => after_attempts (fst (terminate w (pid p))) rest
  end.

Definition succeeded (a : ProcInfo * option PsutilError) : bool :=
  match snd a with None => true | Some _ => false end.

(** The names of the calls that returned, and the calls that raised
    (what the specification's [failures] would hold). *)
Definition terminated_names (w : World) (cands : list ProcInfo) : list string :=
  map (fun a => name (fst a)) (filter succeeded (attempts w cands)).

Definition failures (w : World) (cands : list ProcInfo)
  : list (ProcInfo * option PsutilError) :=
  filter (fun a => negb (succeeded a)) (attempts w cands).

End Loop.

(** The specification's policy and selection, in its own words, to be
    compared with [is_candidate]. *)
Record RemediationPolicy : Type := mkPolicy {
  cpuThresholdPercent : Q;
  memoryThresholdMB : Q;
  exclusionSet : list string
}.

Definition spec_is_candidate (policy : RemediationPolicy) (p : ProcInfo) : Prop :=
  cpu_percent p < cpuThresholdPercent policy
  /\ mem_mb p < memoryThresholdMB policy
  /\ ~ In (name p) (exclusionSet policy).

(** The policy written into [boost_performance]. *)
Definition boost_policy : RemediationPolicy :=
  {| cpuThresholdPercent := 5; memoryThresholdMB := 50;
     exclusionSet := excluded |}.

(** A small operating system for examples: the pids alive; terminating
    a pid that is not alive raises [NoSuchProcess], pid 4 may not be
    terminated. *)
Definition toy_terminate (alive : list Z) (p : Z)
  : list Z * option PsutilError :=
  if existsb (Z.eqb p) alive then
    if Z.eqb p 4 then (alive, Some AccessDenied)
    else (filter (fun q => negb (Z.eqb p q)) alive, None)
  else (alive, Some NoSuchProcess).

End Boost.

(** ** The plots ([update_metrics], lines 301-321) *)

Module Plot.

(** Line 129: [list(range(30))]. *)
Definition time_counter : list nat := seq 0 30.

(** Python's [xs[-n:]] for any [n >= 0]: [-0] is [0], so [xs[-0:]] is
    the whole list. *)
Definition slice_from_minus {A : Type} (n : nat) (xs : list A) : list A :=
  match n with
  | 0 => xs
  | S _ => skipn (List.length xs - n) xs
  end.

(** The two sequences handed to one [plot] call (lines 306, 311, 316):
    [time_counter[-len(w):]] and [w]. *)
Definition plot_args (w : list Q) : list nat * list Q :=
  (slice_from_minus (List.length w) time_counter, w).

End Plot.

(** ** The frame-rate guess ([show_gaming_stats], line 170) *)

Module Fps.

Local Open Scope Q_scope.

(** The subtraction and the product are taken exactly; rounding them to
    floats is monotone and exact at 0 and 144, so it keeps the bounds
    and the order stated of the estimate. *)

(** Python's [int(x)] on a float: truncation towards zero. *)
Definition int_of_float (q : Q) : Z := Z.quot (Qnum q) (Z.pos (Qden q)).

(** Line 170: [int((1 - gpu.load) * 144)]. *)
Definition fps_estimate (gpu : Rolling.GPU) : Z :=
  int_of_float ((1 - Rolling.load gpu) * 144).

End Fps.

(** ** The window and its timer ([__init__], [update_all],
       [show_specs], [show_gpu_stats]) *)

Module App.

Import Procs.

(** What [show_gpu_stats] puts in the "GPU Insights" tab: the text
    "No GPUs detected." or one block per GPU, in order. *)
Inductive GpuView : Type :=
| NoGpusDetected
| GpuStats (gpus : list Rolling.GPU).

(** Lines 217-237. *)
Definition show_gpu_stats (gpus : list Rolling.GPU) : GpuView :=
  match gpus with
  | [] => NoGpusDetected
  | _ :: _ => GpuStats gpus
  end.

(** The content of the gaming tab's text box: [setText] replaces it by
    one view, [append] adds a paragraph after what is there. *)
Inductive Block : Type :=
| Shown (view : Ranker.GamingView)
| Appended (text : string).

Definition setText (view : Ranker.GamingView) : list Block := [Shown view].

Definition append_text (blocks : list Block) (text : string) : list Block :=
  blocks ++ [Appended text].

(** The state of [SystemMonitor] that the methods read and write. *)
Record Window : Type := mkWindow {
  monitor : Rolling.Monitor;
  process_text : list Row;
  spec_text : string;
  gaming_text : list Block;
  gpu_text : GpuView
}.

(** What the outside world answers during one run of [update_all]:
    every method asks again, so every call has its own answer.
    [current_tab] is [self.tabs.currentIndex()]; the tabs were added in
    the order Top Processes (0), Usage Graphs (1), Gaming Mode (2),
    GPU Insights (3), System Specs (4). *)
Record Readings : Type := mkReadings {
  metrics : Rolling.Tick;
  current_tab : Z;
  top_table : list Entry;
  system_info : string;
  gaming_gpus : list Rolling.GPU;
  gaming_table : list Entry;
  stats_gpus : list Rolling.GPU
}.

(** Lines 143-158. *)
Definition update_all (a : Window) (r : Readings) : Window :=
  let a1 :=
    {| monitor := Rolling.update_metrics (monitor a) (metrics r);
       process_text := process_text a; spec_text := spec_text a;
       gaming_text := gaming_text a; gpu_text := gpu_text a |} in
  let a2 :=
    {| monitor := monitor a1;
       process_text := Ranker.show_top_processes (top_table r);
       spec_text := system_info r;
       gaming_text := gaming_text a1; gpu_text := gpu_text a1 |} in
  if (current_tab r =? 2)%Z then
    {| monitor := monitor a2; process_text := process_text a2;
       spec_text := spec_text a2;
       gaming_text :=
         setText (Ranker.show_gaming_stats (gaming_gpus r) (gaming_table r));
       gpu_text := gpu_text a2 |}
  else if (current_tab r =? 3)%Z then
    {| monitor := monitor a2; process_text := process_text a2;
       spec_text := spec_text a2; gaming_text := gaming_text a2;
       gpu_text := show_gpu_stats (stats_gpus r) |}
  else a2.

(** Lines 126-128 and 137-141: empty windows, then the four views are
    filled once ([current_tab] and [metrics] of the readings are not
    looked at). *)
Definition startup (r : Readings) : Window :=
  {| monitor := Rolling.init;
     process_text := Ranker.show_top_processes (top_table r);
     spec_text := system_info r;
     gaming_text :=
       setText (Ranker.show_gaming_stats (gaming_gpus r) (gaming_table r));
     gpu_text := show_gpu_stats (stats_gpus r) |}.

(** The timer firing once per reading. *)
Definition run (a : Window) (rs : list Readings) : Window :=
  fold_left update_all rs a.

(** A click on the boost button: [boost_performance] with lines 214-215
    writing into the gaming tab. *)
Definition boost_click
    (World : Type) (terminate : World -> Z -> World * option PsutilError)
    (a : Window) (w : World) (table : list Entry) : Window * World :=
  let (w', text) := Boost.boost_performance World terminate w table in
  ({| monitor := monitor a; process_text := process_text a;
      spec_text := spec_text a;
      gaming_text := append_text (gaming_text a) text;
      gpu_text := gpu_text a |}, w').

(** Whether the text box still carries an appended paragraph. *)
Definition has_appended (blocks : list Block) : bool :=
  existsb (fun b => match b with Appended _ => true | Shown _ => false end)
    blocks.

End App.

(** ** An operating system that records the calls *)

(** A world that is the list of pids [terminate] was called on so far;
    whether a call raises is up to [outcome], which sees the earlier
    calls. *)
Definition logging_terminate
    (outcome : list Z -> Z -> option Procs.PsutilError)
    (log : list Z) (p : Z) : list Z * option Procs.PsutilError :=
  (log ++ [p], outcome log p).

(** ** Data for the examples *)

(** A tick sequence for examples: tick [i] reports CPU [i], memory
    [2 i] and, on even ticks, no GPU. *)
Definition sample_ticks (n : nat) : list Rolling.Tick :=
  map (fun i =>
         Rolling.mkTick (inject_Z (Z.of_nat i)) (inject_Z (2 * Z.of_nat i))
           (if Nat.even i then [] else [Rolling.mkGPU (1 # 2)]))
      (seq 1 n).



(** The specification's example for candidate selection:
    pid 1 "a" with 2 percent CPU and 30 MB, pid 2 "b" with 10 percent
    and 20 MB, pid 3 "explorer.exe" with 1 percent and 10 MB, under the
    policy (5, 50, {"explorer.exe"}). *)
Definition ex1 : Procs.ProcInfo :=
  {| Procs.pid := 1; Procs.name := "a";
     Procs.rss := 30 * 1024 * 1024; Procs.cpu_percent := 2 |}.
Definition ex2 : Procs.ProcInfo :=
  {| Procs.pid := 2; Procs.name := "b";
     Procs.rss := 20 * 1024 * 1024; Procs.cpu_percent := 10 |}.
Definition ex3 : Procs.ProcInfo :=
  {| Procs.pid := 3; Procs.name := "explorer.exe";
     Procs.rss := 10 * 1024 * 1024; Procs.cpu_percent := 1 |}.
Definition example_policy : Boost.RemediationPolicy :=
  {| Boost.cpuThresholdPercent := 5; Boost.memoryThresholdMB := 50;
     Boost.exclusionSet := ["explorer.exe"%string] |}.

(** A light background process with pid [p]. *)
Definition idle (p : Z) (n : string) : Procs.ProcInfo :=
  {| Procs.pid := p; Procs.name := n;
     Procs.rss := 1024 * 1024; Procs.cpu_percent := 0 |}.

(** Readings for examples: tick [i] of [sample_ticks] with tab [tab]
    selected and one light process in the table. *)
Definition sample_readings (tab : Z) (t : Rolling.Tick) : App.Readings :=
  {| App.metrics := t; App.current_tab := tab;
     App.top_table := [Procs.Read (idle 5 "svc")];
     App.system_info := "System: test";
     App.gaming_gpus := [Rolling.mkGPU (1 # 4)];
     App.gaming_table := [Procs.Read (idle 5 "svc")];
     App.stats_gpus := [] |}.

(** * Properties *)

(** ** Rolling windows *)

Section RollingFacts.

Import Rolling.
Context {A : Type}.
Implicit Types (w xs ys : list A) (x : A).

Lemma last_slice_length n xs :
  List.length (last_slice n xs) = Nat.min (List.length xs) n.
Proof. unfold last_slice. rewrite length_skipn. lia. Qed.

Lemma last_slice_short n xs :
  List.length xs <= n -> last_slice n xs = xs.
Proof.
  intros H. unfold last_slice.
  replace (List.length xs - n) with 0 by lia. reflexivity.
Qed.

(** Slicing before more samples arrive loses nothing the final slice
    would keep. *)
Lemma last_slice_absorb n xs ys :
  last_slice n (last_slice n xs ++ ys) = last_slice n (xs ++ ys).
Proof.
  destruct (Nat.le_gt_cases (List.length xs) n) as [Hle | Hgt].
  - now rewrite (last_slice_short n xs).
  - unfold last_slice at 1 3.
    rewrite !length_app, last_slice_length, !skipn_app, last_slice_length.
    unfold last_slice. rewrite skipn_skipn. f_equal; f_equal; lia.
Qed.

Lemma last_slice_snoc n xs x :
  last_slice (S n) (append xs x) = last_slice n xs ++ [x].
Proof.
  unfold last_slice, append.
  rewrite length_app, skipn_app. simpl List.length.
  replace (List.length xs + 1 - S n) with (List.length xs - n) by lia.
  replace (List.length xs - n - List.length xs) with 0 by lia.
  reflexivity.
Qed.

(** A window that starts within capacity holds the last [K] of all
    that was ever put in it. *)
Lemma feed_last_slice samples : forall w,
  List.length w <= K -> feed w samples = last_slice K (w ++ samples).
Proof.
  induction samples as [| x samples IH]; intros w Hw.
  - rewrite app_nil_r. symmetry. now apply last_slice_short.
  - change (feed w (x :: samples))
      with (feed (last_slice K (append w x)) samples).
    rewrite IH by (rewrite last_slice_length; lia).
    rewrite last_slice_absorb. unfold append.
    now rewrite <- app_assoc.
Qed.

End RollingFacts.

Section RunFacts.

Import Rolling.

(** Each of the three lists is a window fed with its own samples. *)
Lemma run_windows ticks : forall m,
  cpu_usage (run m ticks) = feed (cpu_usage m) (map cpu_percent ticks)
  /\ ram_usage (run m ticks)
     = feed (ram_usage m) (map virtual_memory_percent ticks)
  /\ gpu_usage (run m ticks)
     = feed (gpu_usage m) (map (fun t => gpu_sample (getGPUs t)) ticks).
Proof.
  induction ticks as [| t ticks IH]; intros m.
  - repeat split.
  - exact (IH (update_metrics m t)).
Qed.

Lemma run_init_windows ticks :
  cpu_usage (run init ticks) = last_slice K (map cpu_percent ticks)
  /\ ram_usage (run init ticks)
     = last_slice K (map virtual_memory_percent ticks)
  /\ gpu_usage (run init ticks)
     = last_slice K (map (fun t => gpu_sample (getGPUs t)) ticks).
Proof.
  destruct (run_windows ticks init) as (Hc & Hr & Hg).
  rewrite Hc, Hr, Hg.
  repeat split; apply (feed_last_slice _ []); simpl; lia.
Qed.

Lemma run_init_lengths ticks :
  List.length (cpu_usage (run init ticks)) = Nat.min (List.length ticks) K
  /\ List.length (ram_usage (run init ticks)) = Nat.min (List.length ticks) K
  /\ List.length (gpu_usage (run init ticks)) = Nat.min (List.length ticks) K.
Proof.
  destruct (run_init_windows ticks) as (Hc & Hr & Hg).
  rewrite Hc, Hr, Hg, !last_slice_length, !length_map. auto.
Qed.

End RunFacts.

(** C2. Whatever the sequence of ticks, none of the CPU, memory and
    accelerator windows is ever longer than the capacity K = 30, and
    once at least K ticks have run each holds exactly K samples. *)
Theorem window_length_bounded (ticks : list Rolling.Tick) :
  let m := Rolling.run Rolling.init ticks in
  (List.length (Rolling.cpu_usage m) <= Rolling.K
   /\ List.length (Rolling.ram_usage m) <= Rolling.K
   /\ List.length (Rolling.gpu_usage m) <= Rolling.K)
  /\ (Rolling.K <= List.length ticks ->
      List.length (Rolling.cpu_usage m) = Rolling.K
      /\ List.length (Rolling.ram_usage m) = Rolling.K
      /\ List.length (Rolling.gpu_usage m) = Rolling.K).
Proof.
  intros m. destruct (run_init_lengths ticks) as (Hc & Hr & Hg).
  subst m. rewrite Hc, Hr, Hg. split; [| intros H]; repeat split; lia.
Qed.

Lemma window_length_bounded_witness :
  Rolling.K <= List.length (sample_ticks 31)
  /\ List.length (Rolling.cpu_usage (Rolling.run Rolling.init (sample_ticks 31)))
     = Rolling.K.
Proof.
  assert (H : Rolling.K <= List.length (sample_ticks 31)) by (vm_compute; lia).
  split; [exact H |].
  exact (proj1 (proj2 (window_length_bounded (sample_ticks 31)) H)).
Defined.

(** C3. First in, first out: after N > K ticks each window holds
    exactly the last K samples it was given, s(N-K+1) .. s(N), oldest
    first. *)
Theorem window_fifo (ticks : list Rolling.Tick) :
  Rolling.K < List.length ticks ->
  let m := Rolling.run Rolling.init ticks in
  let dropped := List.length ticks - Rolling.K in
  Rolling.cpu_usage m = skipn dropped (map Rolling.cpu_percent ticks)
  /\ Rolling.ram_usage m
     = skipn dropped (map Rolling.virtual_memory_percent ticks)
  /\ Rolling.gpu_usage m
     = skipn dropped
         (map (fun t => Rolling.gpu_sample (Rolling.getGPUs t)) ticks).
Proof.
  intros _ m dropped. subst m dropped.
  destruct (run_init_windows ticks) as (Hc & Hr & Hg).
  rewrite Hc, Hr, Hg. unfold Rolling.last_slice.
  now rewrite !length_map.
Qed.

Lemma window_fifo_witness :
  Rolling.K < List.length (sample_ticks 32)
  /\ Rolling.cpu_usage (Rolling.run Rolling.init (sample_ticks 32))
     = skipn 2 (map Rolling.cpu_percent (sample_ticks 32)).
Proof.
  assert (H : Rolling.K < List.length (sample_ticks 32)) by (vm_compute; lia).
  split; [exact H |].
  exact (proj1 (window_fifo (sample_ticks 32) H)).
Defined.

(** One call of [update_metrics] puts exactly one new sample at the end
    of each window and keeps at most the [K - 1] newest old ones. *)
Lemma update_metrics_step (m : Rolling.Monitor) (t : Rolling.Tick) :
  Rolling.update_metrics m t
  = {| Rolling.cpu_usage :=
         Rolling.last_slice 29 (Rolling.cpu_usage m) ++ [Rolling.cpu_percent t];
       Rolling.ram_usage :=
         Rolling.last_slice 29 (Rolling.ram_usage m)
           ++ [Rolling.virtual_memory_percent t];
       Rolling.gpu_usage :=
         Rolling.last_slice 29 (Rolling.gpu_usage m)
           ++ [Rolling.gpu_sample (Rolling.getGPUs t)] |}.
Proof.
  unfold Rolling.update_metrics, Rolling.K.
  now rewrite !last_slice_snoc.
Qed.

(** C7. A tick on which no accelerator is reported is a full tick: the
    CPU and memory samples of that tick become the newest entries of
    their windows, the accelerator window gets the sample 0, and the
    update returns the new state (there is no error result). *)
Theorem tick_without_gpu (m : Rolling.Monitor) (c r : Q) :
  let m' := Rolling.update_metrics m (Rolling.mkTick c r []) in
  Rolling.cpu_usage m' = Rolling.last_slice 29 (Rolling.cpu_usage m) ++ [c]
  /\ Rolling.ram_usage m' = Rolling.last_slice 29 (Rolling.ram_usage m) ++ [r]
  /\ Rolling.gpu_usage m'
     = Rolling.last_slice 29 (Rolling.gpu_usage m) ++ [0%Q].
Proof.
  intros m'. subst m'. rewrite update_metrics_step. simpl. auto.
Qed.

(** C10. After every tick the three windows have the same length: a
    tick adds one sample to each (0 to the accelerator window when
    there is no GPU, 100 times the load of the first GPU otherwise) and
    cuts each to its last 30 samples. *)
Theorem windows_equal_length (ticks : list Rolling.Tick) :
  (let m := Rolling.run Rolling.init ticks in
   List.length (Rolling.cpu_usage m) = List.length (Rolling.ram_usage m)
   /\ List.length (Rolling.ram_usage m) = List.length (Rolling.gpu_usage m))
  /\ (forall m t,
        let sample :=
          match Rolling.getGPUs t with
          | [] => 0%Q
          | g :: _ => (Rolling.load g * 100)%Q
          end in
        let m' := Rolling.update_metrics m t in
        Rolling.cpu_usage m'
        = Rolling.last_slice 30 (Rolling.cpu_usage m ++ [Rolling.cpu_percent t])
        /\ Rolling.ram_usage m'
           = Rolling.last_slice 30
               (Rolling.ram_usage m ++ [Rolling.virtual_memory_percent t])
        /\ Rolling.gpu_usage m'
           = Rolling.last_slice 30 (Rolling.gpu_usage m ++ [sample])).
Proof.
  split.
  - intros m. destruct (run_init_lengths ticks) as (Hc & Hr & Hg).
    subst m. rewrite Hc, Hr, Hg. auto.
  - intros m t. simpl. unfold Rolling.gpu_sample.
    destruct (Rolling.getGPUs t); auto.
Qed.

(** ** The order on keys *)

Section KeyOrder.

Import Ranker.
Open Scope Q_scope.

Lemma Qltb_lt (a b : Q) : Qltb a b = true <-> a < b.
Proof.
  unfold Qltb. rewrite negb_true_iff, <- not_true_iff_false, Qle_bool_iff.
  split; intros H; [now apply Qnot_le_lt | now apply Qlt_not_le].
Qed.

(** The boolean comparison is the lexicographic order. *)
Lemma key_lt_lex (a b : Key) :
  key_lt a b = true
  <-> fst a < fst b \/ (fst a == fst b /\ snd a < snd b).
Proof.
  unfold key_lt.
  destruct (Qeq_bool (fst a) (fst b)) eqn:E1.
  - apply Qeq_bool_iff in E1.
    destruct (Qeq_bool (snd a) (snd b)) eqn:E2.
    + apply Qeq_bool_iff in E2. split; [discriminate |].
      intros [H | [_ H]]; lra.
    + apply Qeq_bool_neq in E2. rewrite Qltb_lt.
      split; [auto |]. intros [H | [_ H]]; [lra | exact H].
  - apply Qeq_bool_neq in E1. rewrite Qltb_lt.
    split; [auto |]. intros [H | [H _]]; [exact H | contradiction].
Qed.

(** [a] is not below [b]: [b] comes first, or [a] comes first only
    through input order. *)
Lemma key_lt_false (a b : Key) :
  key_lt a b = false
  <-> fst b < fst a \/ (fst a == fst b /\ snd b <= snd a).
Proof.
  rewrite <- not_true_iff_false, key_lt_lex. split.
  - intros H.
    destruct (Qlt_le_dec (fst b) (fst a)) as [L | L]; [now left | right].
    assert (fst a == fst b).
    { destruct (Qlt_le_dec (fst a) (fst b)) as [L' | L']; [| lra].
      exfalso. apply H. now left. }
    split; [assumption |].
    destruct (Qlt_le_dec (snd a) (snd b)) as [L' | L']; [| assumption].
    exfalso. apply H. now right.
  - intros [H | [H1 H2]] [G | [G1 G2]]; lra.
Qed.

Lemma key_lt_asym (a b : Key) : key_lt a b = true -> key_lt b a = false.
Proof.
  rewrite key_lt_lex, key_lt_false.
  intros [H | [H1 H2]]; [now left | right; split; lra].
Qed.

Lemma key_lt_negtrans (a b c : Key) :
  key_lt a b = false -> key_lt b c = false -> key_lt a c = false.
Proof.
  rewrite !key_lt_false.
  intros [H | [H1 H2]] [G | [G1 G2]];
    solve [left; lra | right; split; lra].
Qed.


End KeyOrder.

(** ** Generic facts on sorted lists *)

Section SortedLists.

Context {A : Type} (R : A -> A -> Prop).

Lemma StronglySorted_app_iff (l1 l2 : list A) :
  StronglySorted R (l1 ++ l2)
  <-> StronglySorted R l1 /\ StronglySorted R l2
      /\ (forall a b, In a l1 -> In b l2 -> R a b).
Proof.
  induction l1 as [| x l1 IH]; simpl.
  - split; [intros H; repeat split; [constructor | exact H | tauto] | tauto].
  - split.
    + intros H. apply StronglySorted_inv in H as [Hs Hf].
      apply IH in Hs as (H1 & H2 & H12).
      rewrite Forall_app in Hf. destruct Hf as [Hf1 Hf2].
      repeat split; [now constructor | exact H2 |].
      intros a b [<- | Ha] Hb; [| now apply H12].
      rewrite Forall_forall in Hf2. now apply Hf2.
    + intros (H1 & H2 & H12).
      apply StronglySorted_inv in H1 as [Hs Hf].
      constructor.
      * apply IH. repeat split; auto.
      * rewrite Forall_app. split; [exact Hf |].
        rewrite Forall_forall. intros b Hb. apply H12; auto.
Qed.

End SortedLists.

Section SortedListsMore.

Context {A : Type} (R : A -> A -> Prop).

Lemma StronglySorted_rev (l : list A) :
  StronglySorted R l -> StronglySorted (fun a b => R b a) (rev l).
Proof.
  induction 1 as [| x l Hs IH Hf]; simpl; [constructor |].
  apply StronglySorted_app_iff. repeat split.
  - exact IH.
  - repeat constructor.
  - intros a b Ha [<- | []]. apply in_rev in Ha.
    rewrite Forall_forall in Hf. now apply Hf.
Qed.

(** In a sorted list the first [k] elements stand before all others. *)
Lemma StronglySorted_firstn_skipn (k : nat) (l : list A) :
  StronglySorted R l ->
  forall a b, In a (firstn k l) -> In b (skipn k l) -> R a b.
Proof.
  intros H. rewrite <- (firstn_skipn k l) in H.
  apply StronglySorted_app_iff in H. tauto.
Qed.


End SortedListsMore.

(** ** The model of [list.sort] *)

Section SortFacts.

Import Procs Ranker.
Variable key : Row -> Key.

Lemma insert_perm x l : Permutation (insert key x l) (x :: l).
Proof.
  induction l as [| y l IH]; simpl; [reflexivity |].
  destruct (key_lt (key y) (key x)); [| reflexivity].
  rewrite IH. apply perm_swap.
Qed.

Lemma stable_sort_perm l : Permutation (stable_sort key l) l.
Proof.
  induction l as [| x l IH]; simpl; [reflexivity |].
  rewrite insert_perm. now constructor.
Qed.

Lemma sort_reverse_perm l : Permutation (sort_reverse key l) l.
Proof.
  unfold sort_reverse.
  rewrite <- Permutation_rev, stable_sort_perm. symmetry.
  apply Permutation_rev.
Qed.

Lemma insert_sorted x l :
  StronglySorted (asc key) l -> StronglySorted (asc key) (insert key x l).
Proof.
  induction 1 as [| y l Hs IH Hf]; simpl.
  - repeat constructor.
  - destruct (key_lt (key y) (key x)) eqn:E.
    + constructor; [exact IH |].
      rewrite Forall_forall in *. intros z Hz.
      apply (Permutation_in _ (insert_perm x l)) in Hz.
      destruct Hz as [<- | Hz]; [| now apply Hf].
      now apply key_lt_asym.
    + constructor; [now constructor |].
      constructor; [exact E |].
      rewrite Forall_forall in *. intros z Hz.
      unfold asc. apply key_lt_negtrans with (key y); [now apply Hf | exact E].
Qed.

Lemma stable_sort_sorted l : StronglySorted (asc key) (stable_sort key l).
Proof.
  induction l as [| x l IH]; simpl; [constructor | now apply insert_sorted].
Qed.

Lemma sort_reverse_sorted l : StronglySorted (desc key) (sort_reverse key l).
Proof.
  unfold sort_reverse.
  exact (StronglySorted_rev (asc key) _ (stable_sort_sorted (rev l))).
Qed.







End SortFacts.

(** ** The two rankings *)

Section Rankings.

Import Procs Ranker.

Lemma StronglySorted_impl {A : Type} (R R' : A -> A -> Prop) (l : list A) :
  (forall a b, R a b -> R' a b) -> StronglySorted R l -> StronglySorted R' l.
Proof.
  intros HR. induction 1 as [| x l Hs IH Hf]; constructor; [exact IH |].
  rewrite Forall_forall in *. auto.
Qed.

Lemma desc_display a b : desc display_key a b <-> display_order a b.
Proof. apply key_lt_false. Qed.

Lemma desc_gaming a b : desc gaming_key a b <-> gaming_order a b.
Proof. apply key_lt_false. Qed.

(** The first [k] rows of a sorted list dominate the rest. *)
Lemma top_dominates (R : Row -> Row -> Prop) (k : nat) (l : list Row) :
  StronglySorted R l ->
  Forall (fun a => Forall (R a) (skipn k l)) (firstn k l).
Proof.
  intros H. rewrite Forall_forall. intros a Ha.
  rewrite Forall_forall. intros b Hb.
  now apply (StronglySorted_firstn_skipn R k l).
Qed.



End Rankings.

(** ** The process-table fetch *)

Section FetchFacts.

Import Procs.

Lemma fetch_readable table : fetch table = map row_of (readable table).
Proof.
  induction table as [| [p | e] table IH]; simpl; congruence.
Qed.

Lemma fetch_app t1 t2 : fetch (t1 ++ t2) = fetch t1 ++ fetch t2.
Proof.
  induction t1 as [| [p | e] t1 IH]; simpl; congruence.
Qed.

(** On dictionaries with every field present the fetch loop returns
    what [fetch] computes on the corresponding [Read] entries. *)
Lemma fetch_loop_complete (procs : list ProcInfo) :
  Iter.fetch_loop (map Iter.info_of procs)
  = Iter.Returned (map Iter.raw_of (fetch (map Read procs))).
Proof.
  induction procs as [| p procs IH]; [reflexivity |].
  cbn [map Iter.fetch_loop fetch Iter.info_of Iter.memory_info].
  rewrite IH. reflexivity.
Qed.

End FetchFacts.





(** C5. The "Top Processes" view shows the first 10 rows of the fetched
    rows rearranged in descending order of CPU percent, rows with equal
    CPU percent in descending order of memory; every row shown ranks at
    least as high as every row left out. *)
Theorem top_processes_ranking (table : list Procs.Entry) :
  let ranked := Ranker.sort_reverse Ranker.display_key (Procs.fetch table) in
  Ranker.show_top_processes table = firstn 10 ranked
  /\ Permutation ranked (Procs.fetch table)
  /\ StronglySorted Ranker.display_order ranked
  /\ Forall (fun a => Forall (Ranker.display_order a) (skipn 10 ranked))
       (Ranker.show_top_processes table).
Proof.
  intros ranked.
  assert (Hs : StronglySorted Ranker.display_order ranked).
  { apply (StronglySorted_impl (Ranker.desc Ranker.display_key)).
    - intros a b. apply desc_display.
    - apply sort_reverse_sorted. }
  repeat split.
  - apply sort_reverse_perm.
  - exact Hs.
  - now apply top_dominates.
Qed.

(** C6. Whenever the "Gaming Mode" view lists processes (that is, when
    a GPU is detected), the list is the first 5 of the fetched rows
    rearranged in descending order of memory, rows with equal memory in
    descending order of CPU percent; every row shown ranks at least as
    high as every row left out. *)
Theorem gaming_stats_ranking
    (gpus : list Rolling.GPU) (table : list Procs.Entry) :
  let ranked := Ranker.sort_reverse Ranker.gaming_key (Procs.fetch table) in
  Permutation ranked (Procs.fetch table)
  /\ StronglySorted Ranker.gaming_order ranked
  /\ Forall (fun a => Forall (Ranker.gaming_order a) (skipn 5 ranked))
       (firstn 5 ranked)
  /\ match Ranker.show_gaming_stats gpus table with
     | Ranker.NoGpuDetected => gpus = []
     | Ranker.GamingStats gpu top =>
         hd_error gpus = Some gpu /\ top = firstn 5 ranked
     end.
Proof.
  intros ranked.
  assert (Hs : StronglySorted Ranker.gaming_order ranked).
  { apply (StronglySorted_impl (Ranker.desc Ranker.gaming_key)).
    - intros a b. apply desc_gaming.
    - apply sort_reverse_sorted. }
  repeat split.
  - apply sort_reverse_perm.
  - exact Hs.
  - now apply top_dominates.
  - destruct gpus; simpl; auto.
Qed.





(** ** Remediation *)

Section BoostFacts.

Import Procs Boost.
Open Scope Q_scope.

Lemma name_in_In s names : name_in s names = true <-> In s names.
Proof.
  unfold name_in. rewrite existsb_exists. split.
  - intros (x & Hx & E). apply String.eqb_eq in E. now subst.
  - intros H. exists s. split; [exact H | apply String.eqb_refl].
Qed.

Lemma is_candidate_iff p :
  is_candidate p = true
  <-> cpu_percent p < 5 /\ mem_mb p < 50 /\ ~ In (name p) excluded.
Proof.
  unfold is_candidate.
  destruct (Ranker.Qltb (cpu_percent p) 5) eqn:Ec;
    destruct (Ranker.Qltb (mem_mb p) 50) eqn:Em; cbn [andb].
  - apply Qltb_lt in Ec. apply Qltb_lt in Em.
    rewrite negb_true_iff, <- not_true_iff_false, name_in_In. tauto.
  - split; [discriminate |]. intros (_ & H & _).
    apply Qltb_lt in H. congruence.
  - split; [discriminate |]. intros (H & _).
    apply Qltb_lt in H. congruence.
  - split; [discriminate |]. intros (H & _).
    apply Qltb_lt in H. congruence.
Qed.

Variable World : Type.
Variable terminate : World -> Z -> World * option PsutilError.

(** The loop is: call [terminate] on every candidate in table order,
    and collect the names of the calls that returned. *)
Lemma boost_loop_attempts table : forall w killed,
  boost_loop World terminate w killed table
  = (after_attempts World terminate w (candidates table),
     killed ++ terminated_names World terminate w (candidates table)).
Proof.
  unfold candidates, terminated_names.
  induction table as [| [p | e] table IH]; intros w killed; cbn [boost_loop readable].
  - simpl. now rewrite app_nil_r.
  - cbn [filter]. destruct (is_candidate p); [| apply IH].
    cbn [attempts after_attempts].
    destruct (terminate w (pid p)) as [w' [e |]]; cbn [fst filter succeeded snd].
    + apply IH.
    + rewrite IH. cbn [map fst]. now rewrite <- app_assoc.
  - apply IH.
Qed.

End BoostFacts.

(** C1. The processes [boost_performance] selects depend on the process
    list and the thresholds only: a process is selected exactly when
    its CPU percent is below 5, its memory in MB is below 50 and its
    name is none of "explorer.exe", "python.exe", "your_game.exe"; the
    calls to terminate are made on the selected processes, whatever the
    operating system answers.  On the specification's example of three
    processes, under its policy as under the code's, exactly the
    process with pid 1 is selected. *)
Theorem candidate_selection :
  (forall p,
     Boost.is_candidate p = true
     <-> (Procs.cpu_percent p < 5)%Q /\ (Procs.mem_mb p < 50)%Q
         /\ ~ In (Procs.name p)
               ["explorer.exe"; "python.exe"; "your_game.exe"]%string)
  /\ (forall p, Boost.is_candidate p = true
                <-> Boost.spec_is_candidate Boost.boost_policy p)
  /\ (forall World terminate w table,
        fst (Boost.boost_loop World terminate w [] table)
        = Boost.after_attempts World terminate w
            (filter Boost.is_candidate (Procs.readable table)))
  /\ Boost.candidates [Procs.Read ex1; Procs.Read ex2; Procs.Read ex3] = [ex1]
  /\ (Boost.spec_is_candidate example_policy ex1
      /\ ~ Boost.spec_is_candidate example_policy ex2
      /\ ~ Boost.spec_is_candidate example_policy ex3).
Proof.
  split; [exact is_candidate_iff |].
  split; [exact is_candidate_iff |].
  split; [intros; now rewrite boost_loop_attempts |].
  split; [reflexivity |].
  unfold Boost.spec_is_candidate, example_policy, Procs.mem_mb; cbn.
  split; [| split].
  - split; [reflexivity |]. split; [reflexivity |].
    intros [H | []]. discriminate.
  - intros (H & _). discriminate.
  - intros (_ & _ & H). apply H. now left.
Qed.

(** C9, as stated, fails: a failed termination is recorded nowhere.
    The text [boost_performance] leaves behind is the same for a
    candidate whose termination raised [NoSuchProcess] and for an empty
    process table, so no failures list can be read off it. *)
Lemma boost_records_no_failures :
  ~ exists failures_of :
      string -> list (Procs.ProcInfo * option Procs.PsutilError),
      forall alive table,
        failures_of
          (snd (Boost.boost_performance (list Z) Boost.toy_terminate alive table))
        = Boost.failures (list Z) Boost.toy_terminate alive
            (Boost.candidates table).
Proof.
  intros [failures_of H].
  pose proof (H [] [Procs.Read (idle 7 "svc")]) as H1.
  pose proof (H [] []) as H2.
  vm_compute in H1, H2. congruence.
Qed.

(** C9, amended. [boost_performance] calls terminate on every candidate
    in turn, each call made whatever the earlier calls did: a call that
    raises (process already exited, access denied) is passed over and
    the loop goes on with the remaining candidates.  The names of the
    candidates whose call returned are collected and reported; a failed
    call leaves no record. *)
Theorem boost_attempts_every_candidate
    (World : Type)
    (terminate : World -> Z -> World * option Procs.PsutilError)
    (w : World) (table : list Procs.Entry) :
  let cands := Boost.candidates table in
  Boost.boost_loop World terminate w [] table
  = (Boost.after_attempts World terminate w cands,
     Boost.terminated_names World terminate w cands)
  /\ Boost.boost_performance World terminate w table
     = (Boost.after_attempts World terminate w cands,
        Boost.boost_message (Boost.terminated_names World terminate w cands))
  /\ map fst (Boost.attempts World terminate w cands) = cands
  /\ (forall before p after,
        cands = before ++ p :: after ->
        Boost.attempts World terminate w cands
        = Boost.attempts World terminate w before
          ++ Boost.attempts World terminate
               (Boost.after_attempts World terminate w before) (p :: after)).
Proof.
  intros cands.
  assert (L : Boost.boost_loop World terminate w [] table
              = (Boost.after_attempts World terminate w cands,
                 Boost.terminated_names World terminate w cands))
    by apply boost_loop_attempts.
  split; [exact L |].
  split; [unfold Boost.boost_performance; now rewrite L |].
  split.
  - clear L. generalize w. induction cands as [| p cs IH]; intros w0; cbn.
    + reflexivity.
    + destruct (terminate w0 (Procs.pid p)) as [w1 o]. cbn. now rewrite IH.
  - intros before p after ->. clear L. generalize w.
    induction before as [| q before IH]; intros w0; [reflexivity |].
    cbn. destruct (terminate w0 (Procs.pid q)) as [w1 o]. cbn.
    now rewrite IH.
Qed.

Lemma boost_attempts_every_candidate_witness :
  let table := [Procs.Read (idle 4 "guarded"); Procs.Read (idle 5 "svc")] in
  Boost.candidates table = [idle 4 "guarded"] ++ idle 5 "svc" :: []
  /\ Boost.attempts (list Z) Boost.toy_terminate [4; 5]%Z
       (Boost.candidates table)
     = Boost.attempts (list Z) Boost.toy_terminate [4; 5]%Z [idle 4 "guarded"]
       ++ Boost.attempts (list Z) Boost.toy_terminate
            (Boost.after_attempts (list Z) Boost.toy_terminate [4; 5]%Z
               [idle 4 "guarded"])
            [idle 5 "svc"].
Proof.
  intros table.
  assert (H : Boost.candidates table = [idle 4 "guarded"] ++ idle 5 "svc" :: [])
    by reflexivity.
  split; [exact H |].
  exact (proj2 (proj2 (proj2 (boost_attempts_every_candidate
                                (list Z) Boost.toy_terminate [4; 5]%Z table)))
           [idle 4 "guarded"] (idle 5 "svc") [] H).
Defined.

(** ** Sanity checks of the model on concrete inputs *)

Example last_slice_short_list : Rolling.last_slice 3 [1; 2] = [1; 2].
Proof. reflexivity. Qed.

Example last_slice_long_list : Rolling.last_slice 3 [1; 2; 3; 4; 5] = [3; 4; 5].
Proof. reflexivity. Qed.

(** [sorted(rows, key=lambda x: (x[3], x[2]), reverse=True)] on rows
    with (memory, CPU) = (10,1), (5,3), (7,3), (10,1): the two rows
    with CPU 3 first, the larger memory ahead, then the two equal rows
    in input order. *)
Example sort_reverse_display :
  let r p m c := Procs.mkRow p "p" (inject_Z m) (inject_Z c) in
  Ranker.sort_reverse Ranker.display_key [r 1 10 1; r 2 5 3; r 3 7 3; r 4 10 1]%Z
  = [r 3 7 3; r 2 5 3; r 1 10 1; r 4 10 1]%Z.
Proof. reflexivity. Qed.

Example sort_reverse_gaming :
  let r p m c := Procs.mkRow p "p" (inject_Z m) (inject_Z c) in
  Ranker.sort_reverse Ranker.gaming_key [r 1 10 1; r 2 5 3; r 3 7 3; r 4 10 2]%Z
  = [r 4 10 2; r 1 10 1; r 3 7 3; r 2 5 3]%Z.
Proof. reflexivity. Qed.

(** A candidate that may not be terminated does not stop the loop: the
    next candidate is terminated and reported. *)
Example boost_goes_on_after_failure :
  Boost.boost_loop (list Z) Boost.toy_terminate [4; 5]%Z []
    [Procs.Read (idle 4 "guarded"); Procs.Raises Procs.AccessDenied;
     Procs.Read (idle 5 "svc")]
  = ([4]%Z, ["svc"%string]).
Proof. reflexivity. Qed.

Example is_candidate_explorer :
  Boost.is_candidate (idle 9 "explorer.exe") = false.
Proof. reflexivity. Qed.

(** * Further properties of the code *)

(** ** The two process views *)

Section ViewFacts.

Import Procs Ranker.
Open Scope Q_scope.

Lemma In_readable p table : In p (readable table) <-> In (Read p) table.
Proof.
  induction table as [| [q | e] table IH]; simpl.
  - tauto.
  - rewrite IH. split; intros [H | H]; auto; left; congruence.
  - rewrite IH. split; [auto |]. intros [H | H]; [discriminate | exact H].
Qed.



(** Two lists in descending order with the same elements are equal
    when rows that tie are equal. *)
Lemma desc_sorted_unique key (s : list Row) : forall s',
  StronglySorted (desc key) s -> StronglySorted (desc key) s' ->
  Permutation s s' ->
  (forall a b, In a s -> In b s -> tie key a b = true -> a = b) ->
  s = s'.
Proof.
  induction s as [| x t IH]; intros s' Hs Hs' Hp Ht.
  - apply Permutation_nil in Hp. now subst.
  - destruct s' as [| y t'].
    + symmetry in Hp. now apply Permutation_nil in Hp.
    + assert (E : x = y).
      { assert (Hx : In x (y :: t'))
          by (apply (Permutation_in _ Hp); now left).
        assert (Hy : In y (x :: t))
          by (apply (Permutation_in _ (Permutation_sym Hp)); now left).
        destruct Hx as [Hx | Hx]; [now subst |].
        destruct Hy as [Hy | Hy]; [now subst |].
        apply StronglySorted_inv in Hs as [_ Fx].
        apply StronglySorted_inv in Hs' as [_ Fy].
        rewrite Forall_forall in Fx, Fy.
        apply Ht; [now left | now right |].
        unfold tie. specialize (Fx y Hy). specialize (Fy x Hx).
        unfold desc in Fx, Fy. now rewrite Fx, Fy. }
      subst y. f_equal.
      apply StronglySorted_inv in Hs as [Hs _].
      apply StronglySorted_inv in Hs' as [Hs' _].
      apply IH; auto.
      * now apply Permutation_cons_inv in Hp.
      * intros a b Ha Hb. apply Ht; now right.
Qed.

Lemma display_order_cpu a b : display_order a b -> x3 b <= x3 a.
Proof. intros [H | [H _]]; lra. Qed.

Lemma gaming_order_mem a b : gaming_order a b -> x2 b <= x2 a.
Proof. intros [H | [H _]]; lra. Qed.

(** The head of a ranked list dominates every row that was ranked. *)
Lemma ranked_head key (R : Row -> Row -> Prop) l :
  (forall a b, desc key a b -> R a b) -> (forall a, R a a) ->
  match sort_reverse key l with
  | [] => l = []
  | r :: _ => Forall (R r) l
  end.
Proof.
  intros HR Hrefl.
  pose proof (sort_reverse_perm key l) as Hp.
  pose proof (sort_reverse_sorted key l) as Hs.
  destruct (sort_reverse key l) as [| r t].
  - now apply Permutation_nil.
  - apply StronglySorted_inv in Hs as [_ Hf].
    rewrite Forall_forall in *. intros b Hb.
    apply (Permutation_in _ (Permutation_sym Hp)) in Hb.
    destruct Hb as [<- | Hb]; [apply Hrefl | apply HR, Hf, Hb].
Qed.

End ViewFacts.




(** X3. The first row of the "Top Processes" view is a process with
    the highest CPU percent of all fetched rows, and the first row of
    the gaming list one with the most memory; a view without rows means
    that no entry could be read. *)
Theorem first_row_is_heaviest
    (gpus : list Rolling.GPU) (table : list Procs.Entry) :
  match Ranker.show_top_processes table with
  | [] => Procs.readable table = []
  | r :: _ =>
      Forall (fun r' => (Procs.x3 r' <= Procs.x3 r)%Q) (Procs.fetch table)
  end
  /\ match Ranker.show_gaming_stats gpus table with
     | Ranker.NoGpuDetected => gpus = []
     | Ranker.GamingStats _ [] => Procs.readable table = []
     | Ranker.GamingStats _ (r :: _) =>
         Forall (fun r' => (Procs.x2 r' <= Procs.x2 r)%Q) (Procs.fetch table)
     end.
Proof.
  assert (N : Procs.fetch table = [] -> Procs.readable table = []).
  { rewrite fetch_readable. now destruct (Procs.readable table). }
  split.
  - unfold Ranker.show_top_processes.
    pose proof (ranked_head Ranker.display_key
                  (fun a b => (Procs.x3 b <= Procs.x3 a)%Q)
                  (Procs.fetch table)) as H.
    destruct (Ranker.sort_reverse Ranker.display_key (Procs.fetch table))
      as [| r t]; simpl.
    + apply N, H; [| intros a; lra].
      intros a b Hab. now apply display_order_cpu, desc_display.
    + apply H; [| intros a; lra].
      intros a b Hab. now apply display_order_cpu, desc_display.
  - destruct gpus as [| g gs]; [reflexivity |]. simpl.
    pose proof (ranked_head Ranker.gaming_key
                  (fun a b => (Procs.x2 b <= Procs.x2 a)%Q)
                  (Procs.fetch table)) as H.
    destruct (Ranker.sort_reverse Ranker.gaming_key (Procs.fetch table))
      as [| r t]; simpl.
    + apply N, H; [| intros a; lra].
      intros a b Hab. now apply gaming_order_mem, desc_gaming.
    + apply H; [| intros a; lra].
      intros a b Hab. now apply gaming_order_mem, desc_gaming.
Qed.

(** X4. The ranking does not depend on the order in which the rows
    arrive, as long as rows that tie on both keys are equal: two lists
    with the same rows are ranked to the same list. *)
Theorem ranking_order_independent
    (key : Procs.Row -> Ranker.Key) (l l' : list Procs.Row) :
  Permutation l l' ->
  (forall a b, In a l -> In b l -> Ranker.tie key a b = true -> a = b) ->
  Ranker.sort_reverse key l = Ranker.sort_reverse key l'.
Proof.
  intros Hp Ht.
  apply (desc_sorted_unique key); try apply sort_reverse_sorted.
  - rewrite (sort_reverse_perm key l), (sort_reverse_perm key l'). exact Hp.
  - intros a b Ha Hb. apply Ht.
    + now apply (Permutation_in _ (sort_reverse_perm key l)).
    + now apply (Permutation_in _ (sort_reverse_perm key l)).
Qed.

Lemma ranking_order_independent_witness :
  let l := [Procs.row_of ex1; Procs.row_of ex2] in
  let l' := [Procs.row_of ex2; Procs.row_of ex1] in
  Ranker.sort_reverse Ranker.display_key l
  = Ranker.sort_reverse Ranker.display_key l'.
Proof.
  intros l l'.
  apply (ranking_order_independent Ranker.display_key l l').
  - apply perm_swap.
  - intros a b [<- | [<- | []]] [<- | [<- | []]] H;
      solve [reflexivity | vm_compute in H; discriminate].
Defined.

(** ** What the boost button terminates *)

Section BoostSafety.

Import Procs Boost.
Open Scope Q_scope.

(** The memory threshold in bytes: 50 MB is 52428800 bytes. *)
Lemma mem_mb_lt_50 p : mem_mb p < 50 <-> (rss p < 52428800)%Z.
Proof.
  unfold mem_mb, Qlt, Qdiv, Qmult, Qinv, inject_Z. simpl. lia.
Qed.

Lemma candidates_sound table :
  Forall (fun p => In (Read p) table /\ cpu_percent p < 5
                   /\ (rss p < 52428800)%Z /\ ~ In (name p) excluded)
    (candidates table).
Proof.
  rewrite Forall_forall. intros p Hp. unfold candidates in Hp.
  apply filter_In in Hp as [Hin Hc].
  apply In_readable in Hin. apply is_candidate_iff in Hc.
  rewrite mem_mb_lt_50 in Hc. tauto.
Qed.

Variable World : Type.
Variable terminate : World -> Z -> World * option PsutilError.

Lemma attempts_fst cands : forall w,
  map fst (attempts World terminate w cands) = cands.
Proof.
  induction cands as [| p cs IH]; intros w; cbn; [reflexivity |].
  destruct (terminate w (pid p)) as [w' o]. cbn. now rewrite IH.
Qed.

Lemma terminated_names_from cands w n :
  In n (terminated_names World terminate w cands) ->
  exists p, In p cands /\ name p = n.
Proof.
  unfold terminated_names. rewrite in_map_iff.
  intros ([p o] & <- & H). apply filter_In in H as [H _].
  exists p. split; [| reflexivity].
  rewrite <- (attempts_fst cands w). apply in_map_iff.
  now exists (p, o).
Qed.

Lemma terminated_names_length cands w :
  (List.length (terminated_names World terminate w cands)
   <= List.length cands)%nat.
Proof.
  unfold terminated_names. rewrite length_map.
  rewrite <- (attempts_fst cands w) at 2. rewrite length_map.
  apply filter_length_le.
Qed.

Lemma terminated_names_nil cands w :
  terminated_names World terminate w cands = []
  <-> Forall (fun a => succeeded a = false)
        (attempts World terminate w cands).
Proof.
  unfold terminated_names.
  induction (attempts World terminate w cands) as [| a l IH]; simpl.
  - split; auto.
  - destruct (succeeded a) eqn:E; simpl.
    + split; [discriminate |]. intros H. apply Forall_inv in H. congruence.
    + rewrite IH. split; [now constructor | apply Forall_inv_tail].
Qed.

End BoostSafety.

Lemma boost_message_nil (killed : list string) :
  Boost.boost_message killed
  = (Boost.newline ++ "[BOOST] No background tasks needed termination.")%string
  <-> killed = [].
Proof.
  split; [| now intros ->].
  destruct killed as [| n k]; [reflexivity |].
  cbn. intros H. discriminate H.
Qed.

Lemma logging_after outcome cands : forall log,
  Boost.after_attempts (list Z) (logging_terminate outcome) log cands
  = log ++ map Procs.pid cands.
Proof.
  induction cands as [| p cs IH]; intros log; cbn.
  - now rewrite app_nil_r.
  - rewrite IH. now rewrite <- app_assoc.
Qed.

(** X5. Whatever the operating system answers, the boost loop calls
    terminate only on processes of the table that were read, use less
    than 5 percent CPU and less than 52428800 bytes (50 MB) and are not
    named "explorer.exe", "python.exe" or "your_game.exe": once each,
    in table order.  No protected name is ever reported as terminated,
    and no more names are reported than calls were made. *)
Theorem boost_calls_only_light_unprotected
    (outcome : list Z -> Z -> option Procs.PsutilError)
    (table : list Procs.Entry) :
  let result :=
    Boost.boost_loop (list Z) (logging_terminate outcome) [] [] table in
  let light p :=
    In (Procs.Read p) table /\ (Procs.cpu_percent p < 5)%Q
    /\ (Procs.rss p < 52428800)%Z
    /\ ~ In (Procs.name p)
          ["explorer.exe"; "python.exe"; "your_game.exe"]%string in
  fst result = map Procs.pid (Boost.candidates table)
  /\ Forall light (Boost.candidates table)
  /\ Forall (fun n => exists p, light p /\ Procs.name p = n) (snd result)
  /\ List.length (snd result) <= List.length (fst result).
Proof.
  intros result light. subst result.
  rewrite boost_loop_attempts. cbn [fst snd app].
  rewrite logging_after. cbn [app].
  pose proof (candidates_sound table) as Hc.
  split; [reflexivity |]. split; [exact Hc |]. split.
  - rewrite Forall_forall in *. intros n Hn.
    apply terminated_names_from in Hn as (p & Hp & <-).
    exists p. split; [now apply Hc | reflexivity].
  - rewrite length_map. apply terminated_names_length.
Qed.

(** X6. The boost button reports "No background tasks needed
    termination." exactly when no call to terminate returned: also when
    there were candidates and every call on them raised. *)
Theorem boost_reports_nothing_iff_no_success
    (World : Type)
    (terminate : World -> Z -> World * option Procs.PsutilError)
    (w : World) (table : list Procs.Entry) :
  snd (Boost.boost_performance World terminate w table)
  = (Boost.newline ++ "[BOOST] No background tasks needed termination.")%string
  <-> Forall (fun a => Boost.succeeded a = false)
        (Boost.attempts World terminate w (Boost.candidates table)).
Proof.
  unfold Boost.boost_performance. rewrite boost_loop_attempts. cbn [snd app].
  rewrite boost_message_nil. apply terminated_names_nil.
Qed.



(** ** More on the rolling windows and their plots *)

Section WindowSteps.

Import Rolling.
Context {A : Type}.
Implicit Types (w : list A) (x : A).

Lemma push_length w x :
  List.length (last_slice K (append w x)) = Nat.min (S (List.length w)) K.
Proof.
  rewrite last_slice_length. unfold append. rewrite length_app.
  cbn [List.length]. now rewrite Nat.add_1_r.
Qed.

Lemma push_filling w x :
  List.length w < K -> last_slice K (append w x) = w ++ [x].
Proof.
  intros H. apply last_slice_short. unfold append.
  rewrite length_app. simpl. lia.
Qed.

Lemma push_full w x :
  List.length w = K -> last_slice K (append w x) = tl w ++ [x].
Proof.
  intros H. unfold last_slice, append. rewrite length_app. simpl List.length.
  replace (List.length w + 1 - K) with 1 by lia.
  destruct w as [| y w]; [discriminate H | reflexivity].
Qed.

Lemma Forall_last_slice (P : A -> Prop) n w :
  Forall P w -> Forall P (last_slice n w).
Proof.
  intros H. unfold last_slice.
  rewrite <- (firstn_skipn (List.length w - n) w) in H.
  now apply Forall_app in H.
Qed.

Lemma Forall_push (P : A -> Prop) w x :
  Forall P w -> P x -> Forall P (last_slice K (append w x)).
Proof.
  intros Hw Hx. apply Forall_last_slice. unfold append.
  apply Forall_app. split; [exact Hw | now constructor].
Qed.

End WindowSteps.

(** The x values of a plot of a window of 1 to 30 samples. *)
Lemma plot_args_axes (w : list Q) :
  1 <= List.length w <= 30 ->
  fst (Plot.plot_args w) = seq (30 - List.length w) (List.length w)
  /\ List.length (fst (Plot.plot_args w)) = List.length (snd (Plot.plot_args w)).
Proof.
  intros H. unfold Plot.plot_args, Plot.slice_from_minus, Plot.time_counter.
  cbn [fst snd].
  destruct (List.length w) as [| n] eqn:E; [lia |].
  rewrite length_seq, skipn_seq, length_seq.
  split; [f_equal; lia | lia].
Qed.

(** X8. After every call of [update_metrics], from whatever state, each
    of the three plots gets as many x values as y values: the x values
    are the last [n] of 0 .. 29 for a window of [n] samples.  (For an
    empty window the slice would be all 30 values; the update appends
    before it plots, so this never arises.) *)
Theorem plots_have_matching_axes (m : Rolling.Monitor) (t : Rolling.Tick) :
  let m' := Rolling.update_metrics m t in
  let matching w :=
    fst (Plot.plot_args w) = seq (30 - List.length w) (List.length w)
    /\ List.length (fst (Plot.plot_args w))
       = List.length (snd (Plot.plot_args w)) in
  (matching (Rolling.cpu_usage m')
   /\ matching (Rolling.ram_usage m')
   /\ matching (Rolling.gpu_usage m'))
  /\ List.length (fst (Plot.plot_args [])) = 30.
Proof.
  intros m' matching. subst m' matching. cbn beta.
  split; [| reflexivity].
  unfold Rolling.update_metrics; cbn [Rolling.cpu_usage Rolling.ram_usage
                                      Rolling.gpu_usage].
  repeat split; apply plot_args_axes || apply (proj2 (plot_args_axes _ _));
    rewrite push_length; unfold Rolling.K; lia.
Qed.

(** X9. One tick moves each window by one sample: while a window holds
    fewer than 30 samples the new sample is added at its end and
    nothing is dropped; once it holds 30, exactly its oldest sample is
    dropped. *)
Theorem tick_shifts_window (m : Rolling.Monitor) (t : Rolling.Tick) :
  let m' := Rolling.update_metrics m t in
  let step (w : list Q) (x : Q) (w' : list Q) :=
    (List.length w < 30 -> w' = w ++ [x])
    /\ (List.length w = 30 -> w' = tl w ++ [x]) in
  step (Rolling.cpu_usage m) (Rolling.cpu_percent t) (Rolling.cpu_usage m')
  /\ step (Rolling.ram_usage m) (Rolling.virtual_memory_percent t)
       (Rolling.ram_usage m')
  /\ step (Rolling.gpu_usage m) (Rolling.gpu_sample (Rolling.getGPUs t))
       (Rolling.gpu_usage m').
Proof.
  intros m' step. subst m' step. cbn beta.
  unfold Rolling.update_metrics; cbn [Rolling.cpu_usage Rolling.ram_usage
                                      Rolling.gpu_usage].
  repeat split; intros H;
    solve [now apply push_filling | now apply push_full].
Qed.

Lemma tick_shifts_window_witness :
  let m := Rolling.run Rolling.init (sample_ticks 30) in
  let t := Rolling.mkTick 7 8 [] in
  List.length (Rolling.cpu_usage m) = 30
  /\ Rolling.cpu_usage (Rolling.update_metrics m t)
     = tl (Rolling.cpu_usage m) ++ [7%Q].
Proof.
  intros m t.
  assert (H : List.length (Rolling.cpu_usage m) = 30) by (vm_compute; reflexivity).
  split; [exact H |].
  exact (proj2 (proj1 (tick_shifts_window m t)) H).
Defined.

(** X10. The windows stay within the plot range: when every tick
    reports CPU and memory percentages between 0 and 100 and GPU loads
    between 0 and 1, every sample in the three windows is between 0 and
    100, from a state in which that held (the empty start in
    particular). *)
Theorem windows_stay_in_range (ticks : list Rolling.Tick) (m : Rolling.Monitor) :
  let pct (q : Q) := (0 <= q /\ q <= 100)%Q in
  let ok (m : Rolling.Monitor) :=
    Forall pct (Rolling.cpu_usage m) /\ Forall pct (Rolling.ram_usage m)
    /\ Forall pct (Rolling.gpu_usage m) in
  Forall (fun t =>
            pct (Rolling.cpu_percent t)
            /\ pct (Rolling.virtual_memory_percent t)
            /\ Forall (fun g => (0 <= Rolling.load g /\ Rolling.load g <= 1)%Q)
                 (Rolling.getGPUs t))
    ticks ->
  ok m -> ok (Rolling.run m ticks).
Proof.
  intros pct ok Ht. revert m.
  induction Ht as [| t ticks (Hc & Hr & Hg) Ht IH]; intros m Hm; [exact Hm |].
  apply IH. destruct Hm as (Mc & Mr & Mg).
  unfold ok, Rolling.update_metrics;
    cbn [Rolling.cpu_usage Rolling.ram_usage Rolling.gpu_usage].
  repeat split; try (apply Forall_push; assumption).
  apply Forall_push; [assumption |].
  unfold Rolling.gpu_sample. destruct Hg as [| g gs [G0 G1] _].
  - unfold pct. lra.
  - unfold pct. lra.
Qed.

Lemma windows_stay_in_range_witness :
  Forall (fun q => (0 <= q /\ q <= 100)%Q)
    (Rolling.gpu_usage (Rolling.run Rolling.init (sample_ticks 3))).
Proof.
  apply (windows_stay_in_range (sample_ticks 3) Rolling.init).
  - unfold sample_ticks. cbn [seq map].
    repeat (apply Forall_cons || apply Forall_nil);
      cbn; unfold Qle; cbn; repeat split; try lia;
      repeat (apply Forall_cons || apply Forall_nil); cbn; lia.
  - repeat split; apply Forall_nil.
Defined.

(** ** The frame-rate guess *)

Section FpsFacts.

Import Fps.
Open Scope Q_scope.

(** On a float that is not negative, [int] is the floor. *)
Lemma int_of_float_floor q : 0 <= q -> int_of_float q = Qfloor q.
Proof.
  destruct q as [n d]. unfold Qle, int_of_float, Qfloor. simpl.
  intros H. apply Z.quot_div_nonneg; lia.
Qed.

Lemma fps_floor gpu :
  Rolling.load gpu <= 1 ->
  fps_estimate gpu = Qfloor ((1 - Rolling.load gpu) * 144).
Proof.
  intros H. unfold fps_estimate. apply int_of_float_floor. nra.
Qed.

End FpsFacts.

(** X11. For a GPU load between 0 and 1 the estimated frame rate is a
    whole number between 0 and 144: 144 for an idle GPU, 0 for a fully
    loaded one, and never larger for a larger load. *)
Theorem fps_estimate_range (g h : Rolling.GPU) :
  (0 <= Rolling.load g)%Q -> (Rolling.load g <= Rolling.load h)%Q ->
  (Rolling.load h <= 1)%Q ->
  (0 <= Fps.fps_estimate h <= Fps.fps_estimate g)%Z
  /\ (Fps.fps_estimate g <= 144)%Z
  /\ ((Rolling.load g == 0)%Q -> Fps.fps_estimate g = 144%Z)
  /\ ((Rolling.load h == 1)%Q -> Fps.fps_estimate h = 0%Z).
Proof.
  intros H0 Hgh H1.
  rewrite (fps_floor g) by lra. rewrite (fps_floor h) by lra.
  set (fg := ((1 - Rolling.load g) * 144)%Q).
  set (fh := ((1 - Rolling.load h) * 144)%Q).
  assert (Lh : (0 <= fh)%Q) by (unfold fh; nra).
  assert (Lgh : (fh <= fg)%Q) by (unfold fh, fg; nra).
  assert (Lg : (fg <= 144)%Q) by (unfold fg; nra).
  apply Qfloor_resp_le in Lh, Lgh, Lg.
  change (Qfloor 0) with 0%Z in Lh. change (Qfloor 144) with 144%Z in Lg.
  repeat split; try assumption.
  - intros E. assert (E' : (fg == 144)%Q) by (unfold fg; rewrite E; reflexivity).
    now rewrite E'.
  - intros E. assert (E' : (fh == 0)%Q) by (unfold fh; rewrite E; reflexivity).
    now rewrite E'.
Qed.

Lemma fps_estimate_range_witness :
  (Fps.fps_estimate (Rolling.mkGPU (1 # 4)) <= 144)%Z
  /\ Fps.fps_estimate (Rolling.mkGPU (1 # 4)) = 108%Z.
Proof.
  split; [| reflexivity].
  apply (fps_estimate_range (Rolling.mkGPU (1 # 4)) (Rolling.mkGPU (1 # 2)));
    unfold Qle; simpl; lia.
Defined.

(** ** The timer and the tabs *)

Section AppFacts.

Import App.

Lemma update_all_monitor a r :
  monitor (update_all a r) = Rolling.update_metrics (monitor a) (metrics r).
Proof.
  unfold update_all.
  destruct (current_tab r =? 2)%Z; [reflexivity |].
  destruct (current_tab r =? 3)%Z; reflexivity.
Qed.

Lemma update_all_always a r :
  process_text (update_all a r) = Ranker.show_top_processes (top_table r)
  /\ spec_text (update_all a r) = system_info r.
Proof.
  unfold update_all.
  destruct (current_tab r =? 2)%Z; [split; reflexivity |].
  destruct (current_tab r =? 3)%Z; split; reflexivity.
Qed.

Lemma update_all_gaming a r :
  gaming_text (update_all a r)
  = if (current_tab r =? 2)%Z
    then setText (Ranker.show_gaming_stats (gaming_gpus r) (gaming_table r))
    else gaming_text a.
Proof.
  unfold update_all.
  destruct (current_tab r =? 2)%Z; [reflexivity |].
  destruct (current_tab r =? 3)%Z; reflexivity.
Qed.

Lemma update_all_gpu a r :
  gpu_text (update_all a r)
  = if (current_tab r =? 2)%Z then gpu_text a
    else if (current_tab r =? 3)%Z then show_gpu_stats (stats_gpus r)
    else gpu_text a.
Proof.
  unfold update_all.
  destruct (current_tab r =? 2)%Z; [reflexivity |].
  destruct (current_tab r =? 3)%Z; reflexivity.
Qed.

Lemma run_snoc a rs r : run a (rs ++ [r]) = update_all (run a rs) r.
Proof. unfold run. now rewrite fold_left_app. Qed.

Lemma run_monitor rs : forall a,
  monitor (run a rs) = Rolling.run (monitor a) (map metrics rs).
Proof.
  induction rs as [| r rs IH]; intros a; [reflexivity |].
  cbn [run fold_left map Rolling.run]. fold (run (update_all a r) rs).
  rewrite IH, update_all_monitor. reflexivity.
Qed.

End AppFacts.

(** X12. The timer samples the metrics on every tick whichever tab is
    selected: after any number of ticks the windows are those of
    [update_metrics] run on the ticks' samples, so after [n] ticks from
    start-up each holds min(n, 30) samples; the process list and the
    system text always come from the latest tick. *)
Theorem timer_samples_on_every_tick
    (r0 : App.Readings) (rs : list App.Readings) :
  let a := App.run (App.startup r0) rs in
  App.monitor a = Rolling.run Rolling.init (map App.metrics rs)
  /\ List.length (Rolling.cpu_usage (App.monitor a))
     = Nat.min (List.length rs) 30
  /\ (forall r,
        let a' := App.run (App.startup r0) (rs ++ [r]) in
        App.process_text a' = Ranker.show_top_processes (App.top_table r)
        /\ App.spec_text a' = App.system_info r).
Proof.
  intros a. subst a.
  assert (M : App.monitor (App.run (App.startup r0) rs)
              = Rolling.run Rolling.init (map App.metrics rs))
    by apply run_monitor.
  split; [exact M |]. split.
  - rewrite M.
    destruct (run_init_lengths (map App.metrics rs)) as (Hc & _).
    rewrite Hc, length_map. reflexivity.
  - intros r a'. subst a'. rewrite run_snoc. apply update_all_always.
Qed.

(** X13. The gaming and GPU tabs are refreshed only while selected: as
    long as neither the gaming tab (index 2) nor the GPU tab (index 3)
    is the current one, any number of ticks leaves their contents as
    they were. *)
Theorem hidden_tabs_keep_their_text
    (a : App.Window) (rs : list App.Readings) :
  Forall (fun r => App.current_tab r <> 2%Z /\ App.current_tab r <> 3%Z) rs ->
  App.gaming_text (App.run a rs) = App.gaming_text a
  /\ App.gpu_text (App.run a rs) = App.gpu_text a.
Proof.
  intros H. revert a.
  induction H as [| r rs [H2 H3] _ IH]; intros a; [split; reflexivity |].
  cbn [App.run fold_left]. fold (App.run (App.update_all a r) rs).
  destruct (IH (App.update_all a r)) as [Eg Ep]. rewrite Eg, Ep.
  rewrite update_all_gaming, update_all_gpu.
  apply Z.eqb_neq in H2, H3. rewrite H2, H3. split; reflexivity.
Qed.

Lemma hidden_tabs_keep_their_text_witness :
  let a := App.startup (sample_readings 0 (Rolling.mkTick 1 1 [])) in
  let rs := map (sample_readings 0) (sample_ticks 3) in
  App.gaming_text (App.run a rs) = App.gaming_text a.
Proof.
  intros a rs.
  apply (hidden_tabs_keep_their_text a rs).
  subst rs. unfold sample_ticks. cbn [seq map].
  repeat (apply Forall_cons || apply Forall_nil); cbn; split; discriminate.
Defined.

(** X14. The report of the boost button does not last: it is appended
    to the gaming tab, and the next timer tick with the gaming tab
    selected replaces the whole text by fresh gaming stats (or by
    "No GPU detected."), report included; on any other tab the tick
    leaves the report in place. *)
Theorem boost_report_is_overwritten
    (World : Type)
    (terminate : World -> Z -> World * option Procs.PsutilError)
    (a : App.Window) (w : World) (table : list Procs.Entry)
    (r : App.Readings) :
  let clicked := fst (App.boost_click World terminate a w table) in
  let report := snd (Boost.boost_performance World terminate w table) in
  App.gaming_text clicked = App.gaming_text a ++ [App.Appended report]
  /\ App.has_appended (App.gaming_text clicked) = true
  /\ (App.current_tab r = 2%Z ->
      App.gaming_text (App.update_all clicked r)
      = [App.Shown (Ranker.show_gaming_stats (App.gaming_gpus r)
                      (App.gaming_table r))]
      /\ App.has_appended (App.gaming_text (App.update_all clicked r)) = false)
  /\ (App.current_tab r <> 2%Z ->
      App.gaming_text (App.update_all clicked r) = App.gaming_text clicked).
Proof.
  intros clicked report. subst clicked report.
  unfold App.boost_click.
  destruct (Boost.boost_performance World terminate w table) as [w' text].
  cbn [fst snd App.gaming_text]. unfold App.append_text.
  split; [reflexivity |]. split.
  - unfold App.has_appended. rewrite existsb_app. cbn.
    apply orb_true_r.
  - split; intros H; rewrite update_all_gaming.
    + rewrite H. cbn. auto.
    + apply Z.eqb_neq in H. now rewrite H.
Qed.

Lemma boost_report_is_overwritten_witness :
  let a := App.startup (sample_readings 2 (Rolling.mkTick 1 1 [])) in
  let clicked :=
    fst (App.boost_click (list Z) Boost.toy_terminate a [5]%Z
           [Procs.Read (idle 5 "svc")]) in
  let r := sample_readings 2 (Rolling.mkTick 2 2 []) in
  App.current_tab r = 2%Z
  /\ App.has_appended (App.gaming_text (App.update_all clicked r)) = false.
Proof.
  intros a clicked r.
  assert (H : App.current_tab r = 2%Z) by reflexivity.
  split; [exact H |].
  exact (proj2 (proj1 (proj2 (proj2 (boost_report_is_overwritten
           (list Z) Boost.toy_terminate a [5]%Z
           [Procs.Read (idle 5 "svc")] r))) H)).
Defined.
